(* ===== verification/_CoqProject ===== *)
-Q . S2P
Prelude.v
JsString.v
JsArray.v
Catalog.v
Filter.v
Page.v
View.v
Tabs.v
Home.v
