(* ===== verification/Prelude.v ===== *)
(** * A verification of the athletic-destinations website

    The repository is a Next.js site with two pages:
    - [src/app/page.tsx] (the landing page [Home]): static markup, with a
      header navigation, three featured destination cards and links to
      [/destinations];
    - [src/app/destinations/page.tsx] (the client component
      [DestinationsPage]): a hardcoded catalog [destinations] of six
      records, the select options [regions] and [interests] derived from
      it, the filter [applyFilters], the event handlers
      [handleRegionChange], [handleInterestChange], [handleSearchChange]
      and [resetFilters], and the rendering of the filtered cards.

    The handlers interact through React state: a handler stores the new
    filter value with a state setter and schedules
    [setTimeout(() => applyFilters(), 0)].  The callback is the
    [applyFilters] closure of the render in which the handler ran, so it
    reads the filter values of that render, not the value just stored.
    This interaction is the one hard behaviour of the program, and the
    development models it as an explicit state machine with a FIFO queue
    of pending timeouts.

    ** Files, in dependency order

    - [Prelude] (this file): the notation scope [dest_scope] (the
      guarded stage [l |> when g keep p]), the tactic [invc], the hint
      databases [catalog] and [catalog_rw], and the generic lemmas on
      [List.filter] and stdpp's [sublist] that the components share.
    - [JsString] (Module [JsString]): the JavaScript string operations the
      code calls, on strings of UTF-16 code units below 256 (Latin-1),
      each a Rocq [ascii]: truthiness ([if (s)]), [toLowerCase] and
      [String.prototype.includes].
    - [JsArray] (Module [JsArray]): [Array.prototype.includes] and
      [[...new Set(xs)]], the set threaded through the elements as
      explicit state ([set_add_all]), with the reference [dedup_first].
    - [Catalog] (Module [Catalog]): the [Destination] record and the six
      records of [destinations] (lines 17-139), copied field by field,
      and their well-formedness [catalog_wf].
    - [Filter] (Module [Filter]): the three filter cells as the record
      [Filters], the predicates and the three guarded stages of
      [applyFilters] (lines 152-174), parameterised by the catalog the
      closure reads; the abstract specification [matches]; the interface
      [FilterLaws] that the page relies on, implemented by
      [applyFilters].
    - [Page] (Module [DestinationsPage]): the state [PageState] (the cell
      [filteredDestinations], the filter cells, and the queue [timeouts]
      of pending callbacks, each recorded by the filter values its
      closure captured), one function per handler, [runTimeout] for a
      callback, [dispatch] and [run] for events, [reachable] for every
      interleaving of user events and callbacks.  The page is a Section
      over the filter [query]; its invariants are proved against
      [FilterLaws].
    - [View] (Module [DestinationsView]): the JSX as functions of the
      committed state: the select options [regions] and [interests]
      (lines 148-149), the [SelectItem]s, the controlled [Select]s and
      [Input] of the filter panel (lines 245-282), [emits], the events
      these controls deliver, and the result area, the empty message or
      one [Card] per destination (lines 292-379).
    - [Tabs] (Module [CardTabs]): the uncontrolled [<Tabs>] of each card
      (lines 332-374) as a [gmap] from the card's React key to its
      active tab, React's keyed reconciliation [reconcile] at each
      render, and [ui_step], which composes a page event of [Page] with
      its render, or handles a click on a trigger.
    - [Home] (Module [Home]): the landing page [src/app/page.tsx] (the
      navigation, hero, "Why Choose Us" items, featured cards and their
      images, footer) and the header, heading and footer of the
      destinations page.

    ** What the theorems show (claims C1-C17)

    - The filter (C1, C7, C13-C15): [applyFilters] refines the
      specification [matches] (C1); its search ignores the case of the
      query (C7); a region no destination has selects nothing (C13), an
      interest is tested by membership in all of a destination's
      interests (C14), and empty filters return the catalog (C15).
    - The page (C2-C4, C9): after any sequence of changes, each followed
      by its callback, the page displays [applyFilters] of the cells as
      they were before the last change (C2, the stale closure); every
      change adds exactly one pending callback, every callback run
      removes one and a reset removes none (C3); once a region no
      destination has, such as ["all"], is committed, every later
      callback shows no destination until the region changes or a reset
      (C4); the queue drains in order and shows the last captured cells
      (C9).  These are stated of the handlers, for any value they are
      called with.
    - The view (C6, C8, C16, C17): the React keys of every reachable
      render are unique (C6); choosing an item or typing shows it back
      in its control, and a reset shows both placeholders (C8); every
      option of a select selects some destination (C16); a render has
      one to six cards, each with its five itinerary rows, or the empty
      message (C17).
    - The page with its card tabs (C5, C10-C12): from any state, letting
      the callbacks run and then resetting brings the page back to a
      consistent render (C5); there is one tab state per rendered card
      and none other (C10); a page event keeps the tab of every card it
      still renders (C11), and a card that comes back shows its tips
      again (C12).

    The runtime operations of [JsString] and [JsArray] carry their own
    lemmas ([[...new Set(xs)]] equals its reference and has no
    duplicates, [includes] decides the substring relation, [toLowerCase]
    is idempotent); the claims use them through the page's definitions.
    The landing page and the chrome of both pages ([Home]) are static
    content, transcribed as data without claims.

    ** Bounds and fuel

    Every recursion is structural: strings, lists, and the explicit
    event lists of [run] and [ui_run].  No fuel is needed.  The only
    loop of the program is the browser's event loop; it is modelled by
    [run], [reachable] and the [rtc] of [ui_step], and [timeouts_drain]
    shows that the pending callbacks run out in exactly [length timeouts]
    steps (C9).  The catalog has six destinations, which bounds every
    render (C17) and the number of tab states (C10).

    ** Modelling choices

    - Strings are [String.string]; each character stands for one UTF-16
      code unit below 256.  All names, regions, interests and
      descriptions of the catalog are ASCII; the three non-ASCII letters
      of the itineraries and the copyright sign are written with their
      Latin-1 codes.  [toLowerCase] is written out on this range (A-Z
      and the Latin-1 capitals); code units above 255 are not modelled.
    - Numbers ([id], image sizes) are [nat]: they are small literals and
      the code does no arithmetic on them.
    - A JavaScript array is a [list]; [filter], [map] and [flatMap] are
      [List.filter], [List.map] and [flat_map], and [filter] keeps order.
    - React: each event is handled against the last committed render
      (React flushes the state updates of a discrete event before the
      next one), and timeouts of delay 0 run in the order they were
      scheduled.  User events and timeouts interleave arbitrarily.  A
      keyed child keeps its state while its key stays rendered.
    - A [Select] shows its placeholder on [""], the label of the item
      holding its value, and nothing otherwise; it calls [onValueChange]
      with an item's value, and only when that differs from its [value]
      prop (as Radix's controllable state does); the [Input] calls
      [onChange] only when its text changes.  [emits] states this, and
      the page with its tabs ([ui_step]) handles only such events.

    ** Findings

    The stale closure (C2), the reset that does not cancel pending
    callbacks (C3), the "all" items that empty every later result (C4)
    and look like the reset state are defects of the code; the spec's
    Triathlon scenario disagrees with the catalog, which lists Triathlon
    for Mallorca too; the spec does not say that a card loses its open
    tab when a filter hides it for a while (C12).

    ** Not modelled

    Styling, icons and layout; the UI component library ([Button],
    [Select], [Card], [Tabs], ...) beyond the display contract of
    [Select] and the state of [Tabs]; routing by [next/link] and image
    loading by [next/image]; the JavaScript runtime itself, whose
    operations [JsString] and [JsArray] define rather than translate.
    These render what the model computes and change no state of the
    program. *)

From stdpp Require Export base list sets strings.
From Stdlib Require Export Ascii String.

Declare Scope dest_scope.
Delimit Scope dest_scope with dest.

(** [if (g) results = results.filter(p)]: a filter stage guarded by a
    condition, the shape of every stage of [applyFilters]. *)
Definition guarded_filter {A} (g : bool) (p : A -> bool) (l : list A) : list A :=
  if g then List.filter p l else l.

Notation "l |> 'when' g 'keep' p" := (guarded_filter g p l)
  (at level 40, g at level 0, p at level 0, left associativity) : dest_scope.

(** Inversion that substitutes and forgets the inverted hypothesis. *)
Ltac invc H := inversion H; subst; clear H.


Create HintDb catalog.
Create Rewrite HintDb catalog_rw.

Section ListFilter.
Context {A : Type}.
Implicit Types (p q : A -> bool) (l k : list A).

Lemma filter_sublist p l : List.filter p l `sublist_of` l.
Proof.
  induction l as [|x l IH]; simpl; [constructor|].
  destruct (p x); constructor; exact IH.
Qed.

Lemma filter_filter_andb p q l :
  List.filter p (List.filter q l) = List.filter (fun x => q x && p x) l.
Proof.
  induction l as [|x l IH]; simpl; [done|].
  destruct (q x); simpl; [destruct (p x)|]; rewrite ?IH; done.
Qed.

Lemma filter_comm p q l :
  List.filter p (List.filter q l) = List.filter q (List.filter p l).
Proof.
  rewrite !filter_filter_andb. apply filter_ext_in.
  intros x _. cbn beta. apply andb_comm.
Qed.

Lemma filter_idem p l : List.filter p (List.filter p l) = List.filter p l.
Proof.
  rewrite filter_filter_andb. apply filter_ext_in.
  intros x _. cbn beta. apply andb_diag.
Qed.

Lemma filter_all_true p l :
  (forall x, In x l -> p x = true) -> List.filter p l = l.
Proof.
  induction l as [|x l IH]; intros H; simpl; [done|].
  rewrite H by (left; done). f_equal. apply IH. intros y Hy. apply H. by right.
Qed.

Lemma filter_all_false p l :
  (forall x, In x l -> p x = false) -> List.filter p l = [].
Proof.
  induction l as [|x l IH]; intros H; simpl; [done|].
  rewrite H by (left; done). apply IH. intros y Hy. apply H. by right.
Qed.

(** A boolean filter is stdpp's filter by the Prop it decides. *)
Lemma filter_bool_prop p (P : A -> Prop) `{forall x, Decision (P x)} l :
  (forall x, p x = true <-> P x) -> List.filter p l = filter P l.
Proof.
  intros HP. induction l as [|x l IH]; [done|]. simpl. rewrite filter_cons.
  destruct (p x) eqn:E; case_decide as HPx; rewrite ?IH; try done.
  - apply HP in E. done.
  - apply HP in HPx. congruence.
Qed.

Lemma sublist_In l k x : l `sublist_of` k -> In x l -> In x k.
Proof.
  induction 1; simpl; [done| |]; intros Hx; [destruct Hx|]; auto.
Qed.

Lemma sublist_NoDup l k : l `sublist_of` k -> NoDup k -> NoDup l.
Proof.
  induction 1 as [|x l k Hlk IH|x l k _ IH]; intros Hk; [constructor| |].
  - apply NoDup_cons in Hk as [Hx Hk]. constructor; [|by apply IH].
    rewrite list_elem_of_In in Hx |- *. eauto using sublist_In.
  - apply NoDup_cons in Hk as [_ Hk]. by apply IH.
Qed.

Lemma sublist_elem_of l k x : l `sublist_of` k -> x ∈ l -> x ∈ k.
Proof. rewrite !list_elem_of_In. apply sublist_In. Qed.

(** Two sublists of a list without duplicates that have the same members
    are equal: a selection that keeps order is fixed by what it keeps. *)
Lemma sublist_NoDup_unique l1 l2 k :
  NoDup k -> l1 `sublist_of` k -> l2 `sublist_of` k ->
  (forall x, x ∈ l1 <-> x ∈ l2) -> l1 = l2.
Proof.
  intros Hk H1. revert Hk l2.
  induction H1 as [|x l1 k H1 IH|x l1 k H1 IH]; intros Hk l2 H2 Hm.
  - by apply sublist_nil_r in H2.
  - apply NoDup_cons in Hk as [Hx Hk].
    apply sublist_cons_r in H2 as [H2 | (l2' & -> & H2)].
    + exfalso. apply Hx, (sublist_elem_of l2); [done|]. apply Hm. left.
    + f_equal. apply IH; [done..|]. intros y. specialize (Hm y).
      rewrite !elem_of_cons in Hm.
      split; intros Hy.
      * destruct (proj1 Hm (or_intror Hy)) as [->|?]; [|done].
        exfalso. exact (Hx (sublist_elem_of _ _ _ H1 Hy)).
      * destruct (proj2 Hm (or_intror Hy)) as [->|?]; [|done].
        exfalso. exact (Hx (sublist_elem_of _ _ _ H2 Hy)).
  - apply NoDup_cons in Hk as [Hx Hk].
    apply sublist_cons_r in H2 as [H2 | (l2' & -> & H2)]; [by apply IH|].
    exfalso. apply Hx, (sublist_elem_of l1); [done|]. apply Hm. left.
Qed.

Lemma guarded_filter_sublist g p l : guarded_filter g p l `sublist_of` l.
Proof. destruct g; simpl; [apply filter_sublist | reflexivity]. Qed.

Lemma guarded_filter_In g p l x :
  In x (guarded_filter g p l) <-> In x l /\ (g = false \/ p x = true).
Proof.
  destruct g; simpl; rewrite ?filter_In.
  - split; [intros [? ?]; auto | intros [? [? | ?]]; [discriminate | auto]].
  - split; [auto | tauto].
Qed.

Lemma guarded_filter_comm g1 g2 p q l :
  guarded_filter g1 p (guarded_filter g2 q l)
  = guarded_filter g2 q (guarded_filter g1 p l).
Proof. destruct g1, g2; simpl; [apply filter_comm | done..]. Qed.

Lemma guarded_filter_as_filter g p l :
  guarded_filter g p l = List.filter (fun x => negb g || p x) l.
Proof.
  destruct g; simpl; [done|]. symmetry. by apply filter_all_true.
Qed.
End ListFilter.

Lemma sublist_map {A B} (f : A -> B) (l k : list A) :
  l `sublist_of` k -> List.map f l `sublist_of` List.map f k.
Proof. induction 1; simpl; constructor; done. Qed.

#[export] Hint Resolve filter_sublist guarded_filter_sublist sublist_map : catalog.
#[export] Hint Rewrite @filter_idem : catalog_rw.
