(* ===== verification/JsString.v ===== *)
(** * JavaScript string operations used by the filter

    [src/app/destinations/page.tsx] tests strings for truthiness
    ([if (regionFilter)], lines 156, 161, 166), lower-cases them
    ([toLowerCase], lines 167 and 169) and searches substrings
    ([String.prototype.includes], line 169).  A string is a sequence of
    UTF-16 code units; the model covers units below 256 (Latin-1), one
    [ascii] each.  [includes] is proved equal to the relational
    specification of a substring, and [toLowerCase] idempotent. *)

From S2P Require Import Prelude.

Module JsString.
Local Open Scope string_scope.

(** [if (s)]: the empty string is the only falsy string. *)
Definition truthy (s : string) : bool :=
  match s with
  | EmptyString => false
  | String _ _ => true
  end.

(** The code units that [toLowerCase] changes below 256: the capitals
    A-Z (65-90) and the Latin-1 capitals 192-222 except the
    multiplication sign 215.  Each maps to the unit 32 above it. *)
Definition is_upper_unit (n : nat) : bool :=
  (((65 <=? n) && (n <=? 90)) || ((192 <=? n) && (n <=? 222) && negb (n =? 215)))%nat.

Definition toLowerCase_unit (c : ascii) : ascii :=
  let n := nat_of_ascii c in
  if is_upper_unit n then ascii_of_nat (n + 32)%nat else c.

(** [s.toLowerCase()] *)
Fixpoint toLowerCase (s : string) : string :=
  match s with
  | EmptyString => EmptyString
  | String c s' => String (toLowerCase_unit c) (toLowerCase s')
  end.

(** [s.startsWith(q)] *)
Fixpoint startsWith (s q : string) : bool :=
  match q, s with
  | EmptyString, _ => true
  | String c q', String d s' => Ascii.eqb c d && startsWith s' q'
  | String _ _, EmptyString => false
  end.

(** [s.includes(q)]: [q] starts at some position of [s]. *)
Fixpoint includes (s q : string) : bool :=
  startsWith s q ||
  match s with
  | EmptyString => false
  | String _ s' => includes s' q
  end.

(** ** Substring search *)

Lemma startsWith_spec s q :
  startsWith s q = true <-> exists suf, s = q ++ suf.
Proof.
  revert s; induction q as [|c q IH]; intros [|d s]; simpl.
  - split; [by exists "" | done].
  - split; [by exists (String d s) | done].
  - split; [done | by intros [? ?]].
  - rewrite andb_true_iff, Ascii.eqb_eq, IH. split.
    + intros [-> [suf ->]]. by exists suf.
    + intros [suf Hs]. injection Hs as -> ->. eauto.
Qed.

(** [includes] decides the substring relation. *)
Lemma includes_spec s q :
  includes s q = true <-> exists pre suf, s = pre ++ q ++ suf.
Proof.
  induction s as [|d s IH]; cbn [includes]; rewrite orb_true_iff, startsWith_spec.
  - split.
    + intros [[suf Hs] | ?]; [by exists "", suf | done].
    + intros [[|? pre] [suf Hs]]; [by left; exists suf | done].
  - rewrite IH. split.
    + intros [[suf Hs] | [pre [suf ->]]].
      * by exists "", suf.
      * by exists (String d pre), suf.
    + intros [[|c pre] [suf Hs]]; [by left; exists suf|].
      injection Hs as -> ->. right. eauto.
Qed.

(** The substring relation is decidable, by [includes]. *)
#[export] Instance substring_dec (s q : string) :
  Decision (exists pre suf, s = pre ++ q ++ suf).
Proof.
  destruct (includes s q) eqn:E; [left | right]; rewrite <- includes_spec; congruence.
Defined.

Lemma includes_empty s : includes s "" = true.
Proof. destruct s; reflexivity. Qed.

(** ** Lower case *)

Lemma toLowerCase_unit_idem c :
  toLowerCase_unit (toLowerCase_unit c) = toLowerCase_unit c.
Proof. destruct c as [[] [] [] [] [] [] [] []]; vm_compute; reflexivity. Qed.

Lemma toLowerCase_idem s : toLowerCase (toLowerCase s) = toLowerCase s.
Proof.
  induction s as [|c s IH]; simpl; [done|]. by rewrite toLowerCase_unit_idem, IH.
Qed.

Lemma toLowerCase_length s : String.length (toLowerCase s) = String.length s.
Proof. induction s; simpl; auto. Qed.

Lemma toLowerCase_app s t : toLowerCase (s ++ t) = toLowerCase s ++ toLowerCase t.
Proof. induction s as [|c s IH]; simpl; [done|]. by rewrite IH. Qed.

Lemma truthy_toLowerCase s : truthy (toLowerCase s) = truthy s.
Proof. by destruct s. Qed.

Lemma truthy_false s : truthy s = false <-> s = "".
Proof. destruct s; simpl; split; done. Qed.

Lemma toLowerCase_unit_upper c :
  is_upper_unit (nat_of_ascii c) = true ->
  nat_of_ascii (toLowerCase_unit c) = nat_of_ascii c + 32.
Proof. destruct c as [[] [] [] [] [] [] [] []]; vm_compute; done. Qed.

Lemma toLowerCase_unit_other c :
  is_upper_unit (nat_of_ascii c) = false -> toLowerCase_unit c = c.
Proof. unfold toLowerCase_unit. intros ->. done. Qed.

(** ** Properties of the code *)

Lemma append_length s t : String.length (s ++ t) = String.length s + String.length t.
Proof. induction s; simpl; auto. Qed.

(** [s.includes(q)] decides whether [q] occurs in [s]: it is true
    exactly when [s] splits as [pre ++ q ++ suf]; the empty string
    occurs in every string, and a string found in [s] is no longer
    than [s]. *)
Theorem includes_substring s q :
  (includes s q = true <-> exists pre suf, s = pre ++ q ++ suf) /\
  includes s "" = true /\
  (includes s q = true -> String.length q <= String.length s).
Proof.
  split_and!; [apply includes_spec | apply includes_empty |].
  rewrite includes_spec. intros (pre & suf & ->). rewrite !append_length. lia.
Qed.

(** [toLowerCase] maps each code unit on its own, moves the
    capitals 32 code points up and leaves every other unit unchanged;
    it keeps the length, keeps truthiness, and is idempotent. *)
Theorem toLowerCase_spec s c :
  toLowerCase (String c s) = String (toLowerCase_unit c) (toLowerCase s) /\
  (is_upper_unit (nat_of_ascii c) = true ->
     nat_of_ascii (toLowerCase_unit c) = nat_of_ascii c + 32) /\
  (is_upper_unit (nat_of_ascii c) = false -> toLowerCase_unit c = c) /\
  String.length (toLowerCase s) = String.length s /\
  truthy (toLowerCase s) = truthy s /\
  toLowerCase (toLowerCase s) = toLowerCase s.
Proof.
  split_and!; [reflexivity | apply toLowerCase_unit_upper | apply toLowerCase_unit_other
              | apply toLowerCase_length | apply truthy_toLowerCase | apply toLowerCase_idem].
Qed.

End JsString.

#[export] Hint Rewrite JsString.toLowerCase_idem JsString.truthy_toLowerCase : catalog_rw.
