(* ===== verification/JsArray.v ===== *)
(** * JavaScript array and set operations used by the page

    [src/app/destinations/page.tsx] tests membership with
    [Array.prototype.includes] (line 162) and builds the select options
    with [[...new Set(xs)]] (lines 148-149).  A [Set] remembers the
    insertion order of its distinct values, and spreading it lists them
    in that order: [set_add_all] threads the set through the elements as
    explicit state.  Its reference [dedup_first] is structural recursion
    on the list; the two are proved equal, and the result is shown to be
    the duplicate-free sublist of first occurrences. *)

From S2P Require Import Prelude.

Module JsArray.
Section WithEq.
Context {A : Type} `{EqDecision A}.
Implicit Types (x y : A) (xs seen : list A).

(** [xs.includes(x)] *)
Definition includes xs x : bool := bool_decide (x ∈ xs).

(** [set.add(x)]: appends [x] unless it is already a member. *)
Definition set_add seen x : list A :=
if bool_decide (x ∈ seen) then seen else seen ++ [x].

(** [new Set(xs)] started from the set [seen]. *)
Fixpoint set_add_all seen xs : list A :=
match xs with
| [] => seen
| x :: xs' => set_add_all (set_add seen x) xs'
end.

(** [[...new Set(xs)]] *)
Definition set_spread xs : list A := set_add_all [] xs.

(** Reference: keep the first occurrence, drop the later ones. *)
Fixpoint dedup_first xs : list A :=
match xs with
| [] => []
| x :: xs' => x :: List.filter (fun y => negb (bool_decide (y = x))) (dedup_first xs')
end.

Definition not_in seen : A -> bool := fun y => negb (bool_decide (y ∈ seen)).

Lemma filter_not_in_skip seen x l :
x ∈ seen ->
List.filter (not_in seen) (List.filter (fun y => negb (bool_decide (y = x))) l)
= List.filter (not_in seen) l.
Proof.
intros Hx. rewrite filter_filter_andb. apply filter_ext_in. intros y _.
unfold not_in. repeat case_bool_decide; simplify_eq; done.
Qed.

Lemma filter_not_in_snoc seen x l :
List.filter (not_in (seen ++ [x])) l
= List.filter (not_in seen) (List.filter (fun y => negb (bool_decide (y = x))) l).
Proof.
rewrite filter_filter_andb. apply filter_ext_in. intros y _.
unfold not_in. repeat case_bool_decide; set_solver.
Qed.

Lemma set_add_all_spec seen xs :
set_add_all seen xs = seen ++ List.filter (not_in seen) (dedup_first xs).
Proof.
revert seen; induction xs as [|x xs IH]; intros seen; simpl.
- by rewrite app_nil_r.
- rewrite IH. unfold set_add, not_in at 2. case_bool_decide as Hx; simpl.
  + by rewrite filter_not_in_skip.
  + by rewrite filter_not_in_snoc, <- app_assoc.
Qed.

(** ** Properties of the reference *)

Lemma dedup_first_elem_of xs x : x ∈ dedup_first xs <-> x ∈ xs.
Proof.
induction xs as [|y xs IH]; simpl; [done|].
rewrite !elem_of_cons, list_elem_of_In, filter_In, <- list_elem_of_In, IH.
destruct (decide (x = y)); [naive_solver|].
rewrite bool_decide_eq_false_2 by done. naive_solver.
Qed.

Lemma dedup_first_NoDup xs : NoDup (dedup_first xs).
Proof.
induction xs as [|x xs IH]; simpl; constructor.
- rewrite list_elem_of_In, filter_In. rewrite bool_decide_eq_true_2 by done.
  by intros [_ ?].
- eapply sublist_NoDup; [apply filter_sublist | exact IH].
Qed.

Lemma dedup_first_sublist xs : dedup_first xs `sublist_of` xs.
Proof.
induction xs as [|x xs IH]; simpl; constructor.
etrans; [apply filter_sublist | exact IH].
Qed.

Lemma dedup_first_NoDup_id xs : NoDup xs -> dedup_first xs = xs.
Proof.
induction 1 as [|x xs Hx Hxs IH]; simpl; [done|]. f_equal.
rewrite IH. apply filter_all_true. intros y Hy.
rewrite bool_decide_eq_false_2; [done|]. intros ->. by apply Hx, list_elem_of_In.
Qed.

Lemma filter_not_in_nil l : List.filter (not_in []) l = l.
Proof.
apply filter_all_true. intros y _. unfold not_in.
rewrite bool_decide_eq_false_2; [done | apply not_elem_of_nil].
Qed.

(** ** The spread of a set *)

(** [[...new Set(xs)]], computed by threading the set through
  [xs], equals the reference [dedup_first] that keeps first
  occurrences. *)
Theorem set_spread_dedup_first xs : set_spread xs = dedup_first xs.
Proof. unfold set_spread. rewrite set_add_all_spec. apply filter_not_in_nil. Qed.

(** [[...new Set(xs)]] lists every member of [xs] exactly once, in
  the order of first occurrence: it has no duplicates, the same
  members as [xs], and is a sublist of [xs]. *)
Theorem set_spread_spec xs :
NoDup (set_spread xs) /\ (forall x, x ∈ set_spread xs <-> x ∈ xs) /\
set_spread xs `sublist_of` xs.
Proof.
unfold set_spread. rewrite set_add_all_spec, filter_not_in_nil. split_and!.
- apply dedup_first_NoDup.
- apply dedup_first_elem_of.
- apply dedup_first_sublist.
Qed.

Lemma set_spread_elem_of xs x : x ∈ set_spread xs <-> x ∈ xs.
Proof. unfold set_spread. rewrite set_add_all_spec, filter_not_in_nil. apply dedup_first_elem_of. Qed.

Lemma set_spread_NoDup_id xs : NoDup xs -> set_spread xs = xs.
Proof. unfold set_spread. rewrite set_add_all_spec, filter_not_in_nil. apply dedup_first_NoDup_id. Qed.
End WithEq.
End JsArray.
