(* ===== verification/Catalog.v ===== *)
(** * The destination catalog

    The record type of a destination and the six records of the constant
    [destinations] of [src/app/destinations/page.tsx] (lines 17-139),
    copied field by field.  [itinerary] is the JavaScript object with the
    five keys [day1] .. [day5], a record here.  The three non-ASCII letters
    of the Mallorca itinerary are written with their Latin-1 codes
    (231 for c-cedilla, 250 for u-acute, 224 for a-grave).  The theorems
    check the invariants of the data that the spec states and that the
    rendering relies on for its React keys. *)

From S2P Require Import Prelude.

Module Catalog.
Local Open Scope string_scope.

Record Itinerary := {
  day1 : string; day2 : string; day3 : string; day4 : string; day5 : string
}.

Record Destination := {
  id : nat;
  name : string;
  region : string;
  interests : list string;
  description : string;
  image : string;
  tips : list string;
  itinerary : Itinerary
}.

#[export] Instance Itinerary_eq_dec : EqDecision Itinerary.
Proof. solve_decision. Defined.

#[export] Instance Destination_eq_dec : EqDecision Destination.
Proof. solve_decision. Defined.

Definition boulder : Destination := {|
  id := 1;
  name := "Boulder, Colorado";
  region := "North America";
  interests := ["Trail Running"; "Cycling"; "Rock Climbing"];
  description := "A mecca for endurance athletes with high-altitude training opportunities and endless trails.";
  image := "/placeholder.svg?height=300&width=400";
  tips := [
    "Acclimatize to the altitude before intense training";
    "Hydrate more than usual due to the dry climate";
    "Check weather conditions as they can change rapidly"];
  itinerary := {|
    day1 := "Morning trail run at Chautauqua Park, afternoon recovery at Boulder Creek";
    day2 := "Cycling up Flagstaff Mountain, yoga session in the evening";
    day3 := "Rock climbing at Eldorado Canyon, recovery swim at Boulder Reservoir";
    day4 := "Long run on Boulder Creek Path, sports massage in the afternoon";
    day5 := "Mountain biking at Valmont Bike Park, stretching and recovery" |} |}.

Definition mallorca : Destination := {|
  id := 2;
  name := "Mallorca, Spain";
  region := "Europe";
  interests := ["Cycling"; "Swimming"; "Triathlon"];
  description := "A cyclist's paradise with smooth roads, challenging climbs, and beautiful Mediterranean scenery.";
  image := "/placeholder.svg?height=300&width=400";
  tips := [
    "Best cycling season is from February to June and September to November";
    "Rent a bike locally to avoid travel hassles";
    "Stay hydrated in the Mediterranean heat"];
  itinerary := {|
    day1 := "Morning coastal ride to Cap Formentor, afternoon swim at Port de Pollen"
            ++ String "231"%char "a";
    day2 := "Challenging climb up Sa Calobra, recovery walk along the beach";
    day3 := "Easy spin around Alc" ++ String "250"%char "dia Bay, open water swimming session";
    day4 := "Long ride through the Tramuntana mountains, massage therapy";
    day5 := "Recovery ride to Art" ++ String "224"%char ", beach relaxation and stretching" |} |}.

Definition kona : Destination := {|
  id := 3;
  name := "Kona, Hawaii";
  region := "North America";
  interests := ["Triathlon"; "Swimming"; "Running"];
  description := "Home of the IRONMAN World Championship with perfect conditions for triathlon training year-round.";
  image := "/placeholder.svg?height=300&width=400";
  tips := [
    "Train during the same time of day as your race to acclimatize to the heat";
    "Practice open water swimming in the bay to get used to ocean conditions";
    "Use high SPF sunscreen as the Hawaiian sun is intense"];
  itinerary := {|
    day1 := "Swim at Kailua Bay, easy run along Ali'i Drive";
    day2 := "Bike the Queen K Highway, recovery swim";
    day3 := "Run to the Energy Lab, afternoon yoga for recovery";
    day4 := "Long ride up to Hawi, light swim in the afternoon";
    day5 := "Practice race simulation with transitions, recovery massage" |} |}.

Definition chamonix : Destination := {|
  id := 4;
  name := "Chamonix, France";
  region := "Europe";
  interests := ["Trail Running"; "Skiing"; "Mountaineering"];
  description := "A trail runner's dream with access to the iconic Ultra-Trail du Mont-Blanc course and alpine terrain.";
  image := "/placeholder.svg?height=300&width=400";
  tips := [
    "Prepare for significant elevation changes on trails";
    "Carry emergency gear even on short runs due to changing mountain weather";
    "Consider hiring a local guide for the more technical routes"];
  itinerary := {|
    day1 := "Acclimatization hike to Lac Blanc, stretching session in the evening";
    day2 := "Technical trail run on part of the UTMB course, recovery walk in town";
    day3 := "Long mountain run to Mer de Glace, ice bath in glacial streams";
    day4 := "Vertical kilometer training, massage therapy in the afternoon";
    day5 := "Easy trail to Plan de l'Aiguille, yoga and recovery" |} |}.

Definition gold_coast : Destination := {|
  id := 5;
  name := "Gold Coast, Australia";
  region := "Oceania";
  interests := ["Swimming"; "Surfing"; "Triathlon"];
  description := "Year-round warm weather with excellent swimming facilities and beautiful beaches for training.";
  image := "/placeholder.svg?height=300&width=400";
  tips := [
    "Early morning training is best to avoid the midday heat";
    "Be aware of strong ocean currents when swimming";
    "The Miami Aquatic Centre offers Olympic-standard facilities"];
  itinerary := {|
    day1 := "Ocean swim at Burleigh Heads, beach run in the afternoon";
    day2 := "Pool session at Miami Aquatic Centre, coastal cycle route";
    day3 := "Surf lesson at Surfers Paradise, recovery walk along the esplanade";
    day4 := "Triathlon brick session, afternoon stretching and yoga";
    day5 := "Long beach run, ocean recovery swim" |} |}.

Definition iten : Destination := {|
  id := 6;
  name := "Iten, Kenya";
  region := "Africa";
  interests := ["Running"; "Altitude Training"];
  description := "The 'Home of Champions' where many elite Kenyan runners train at high altitude.";
  image := "/placeholder.svg?height=300&width=400";
  tips := [
    "Allow 2-3 weeks for proper altitude acclimatization";
    "Join local runners for group training sessions";
    "Respect local customs and training methods"];
  itinerary := {|
    day1 := "Easy acclimatization run, visit to High Altitude Training Centre";
    day2 := "Morning fartlek session with local runners, afternoon rest";
    day3 := "Long run through tea plantations, recovery walk";
    day4 := "Track session at Kamariny Stadium, stretching and mobility work";
    day5 := "Easy trail run, visit to local running camp" |} |}.

(** [const destinations = [...]] *)
Definition destinations : list Destination :=
  [boulder; mallorca; kona; chamonix; gold_coast; iten].

(** The invariants of a catalog the spec states (unique ids, non-empty
    interests) and the one the [Badge key={interest}] list needs
    (no interest twice in one destination). *)
Definition catalog_wf (c : list Destination) : Prop :=
  NoDup (List.map id c) /\
  Forall (fun d => interests d <> [] /\ NoDup (interests d)) c.

#[export] Instance catalog_wf_dec c : Decision (catalog_wf c).
Proof. unfold catalog_wf. apply _. Defined.

(** The seed catalog is well formed: its ids are distinct, and every
    destination has a non-empty list of interests without repetition. *)
Theorem destinations_wf : catalog_wf destinations.
Proof. apply (bool_decide_eq_true_1 _). vm_compute. reflexivity. Qed.

Lemma catalog_wf_NoDup c : catalog_wf c -> NoDup c.
Proof.
  intros [Hids _]. induction c as [|d c IH]; simpl in *; constructor.
  - apply NoDup_cons in Hids as [Hd _]. intros Hin. apply Hd.
    by apply list_elem_of_fmap_2.
  - apply IH. by apply NoDup_cons in Hids as [_ ?].
Qed.

(** Well-formedness passes to every order-preserving selection. *)
Lemma catalog_wf_sublist l c : l `sublist_of` c -> catalog_wf c -> catalog_wf l.
Proof.
  intros Hl [Hids Hint]. split.
  - eapply sublist_NoDup; [apply sublist_map, Hl | exact Hids].
  - rewrite List.Forall_forall in Hint |- *. intros d Hd. apply Hint. by eapply sublist_In.
Qed.
(** In a well-formed catalog a destination is determined by its id. *)
Lemma catalog_id_inj c d d' :
  catalog_wf c -> d ∈ c -> d' ∈ c -> id d = id d' -> d = d'.
Proof.
  intros [Hids _]. induction c as [|x c IH]; [set_solver|]. simpl in Hids.
  apply NoDup_cons in Hids as [Hx Hids]. rewrite !elem_of_cons.
  intros [-> | Hd] [-> | Hd'] Heq; try done; [| symmetry in Heq |];
    try (exfalso; apply Hx; rewrite Heq; by apply list_elem_of_fmap_2); auto.
Qed.
End Catalog.
