(* ===== verification/Filter.v ===== *)
(** * The filter of the destinations page

    [applyFilters] of [src/app/destinations/page.tsx] (lines 152-174)
    copies the catalog and narrows it in three stages, each guarded by the
    truthiness of one filter value: region equality, interest membership,
    and case-insensitive search in the name or the description.  The
    closure reads the catalog and the three filter cells of its render;
    here the catalog is a parameter and the three cells a record
    [Filters].  [matches] is the abstract specification of the filter and
    [applyFilters_refines] proves that the stages implement it; the other
    theorems pin the search's case folding, the region and interest
    tests on their own, and the identity on empty filters. *)

From S2P Require Import Prelude JsString JsArray Catalog.
Import Catalog.

Module Filter.
Local Open Scope string_scope.
Local Open Scope dest_scope.

(** The three filter cells [regionFilter], [interestFilter] and
    [searchQuery] of the component (lines 143-145). *)
Record Filters := {
  regionFilter : string;
  interestFilter : string;
  searchQuery : string
}.

#[export] Instance Filters_eq_dec : EqDecision Filters.
Proof. solve_decision. Defined.

(** [useState("")] three times; also what [resetFilters] stores. *)
Definition emptyFilters : Filters :=
  {| regionFilter := ""; interestFilter := ""; searchQuery := "" |}.

(** [(dest) => dest.region === regionFilter] *)
Definition region_pred (regionFilter : string) (dest : Destination) : bool :=
  String.eqb (region dest) regionFilter.

(** [(dest) => dest.interests.includes(interestFilter)] *)
Definition interest_pred (interestFilter : string) (dest : Destination) : bool :=
  JsArray.includes (interests dest) interestFilter.

(** [(dest) => dest.name.toLowerCase().includes(query) ||
              dest.description.toLowerCase().includes(query)] *)
Definition search_pred (query : string) (dest : Destination) : bool :=
  JsString.includes (JsString.toLowerCase (name dest)) query
  || JsString.includes (JsString.toLowerCase (description dest)) query.

(** [if (regionFilter) { results = results.filter(...) }] *)
Definition region_stage (f : Filters) (results : list Destination) : list Destination :=
  results |> when (JsString.truthy (regionFilter f)) keep (region_pred (regionFilter f)).

(** [if (interestFilter) { results = results.filter(...) }] *)
Definition interest_stage (f : Filters) (results : list Destination) : list Destination :=
  results |> when (JsString.truthy (interestFilter f)) keep (interest_pred (interestFilter f)).

(** [const query = searchQuery.toLowerCase()] *)
Definition lowered_query (searchQuery : string) : string :=
  JsString.toLowerCase searchQuery.

(** [if (searchQuery) { const query = ...; results = results.filter(...) }] *)
Definition search_stage (f : Filters) (results : list Destination) : list Destination :=
  let query := lowered_query (searchQuery f) in
  results |> when (JsString.truthy (searchQuery f)) keep (search_pred query).

(** [let results = [...destinations]], the three stages in the order of
    the code; the value passed to [setFilteredDestinations]. *)
Definition applyFilters (destinations : list Destination) (f : Filters) : list Destination :=
  let results := destinations in
  let results := region_stage f results in
  let results := interest_stage f results in
  search_stage f results.

(** ** Abstract specification *)

(** [d] contains [q] in its name or description, ignoring case. *)
Definition mentions (q : string) (d : Destination) : Prop :=
  (exists pre suf, JsString.toLowerCase (name d) = pre ++ JsString.toLowerCase q ++ suf) \/
  (exists pre suf, JsString.toLowerCase (description d) = pre ++ JsString.toLowerCase q ++ suf).

(** A destination passes the filters when each non-empty filter value
    holds of it. *)
Definition matches (f : Filters) (d : Destination) : Prop :=
  (regionFilter f = "" \/ region d = regionFilter f) /\
  (interestFilter f = "" \/ interestFilter f ∈ interests d) /\
  (searchQuery f = "" \/ mentions (searchQuery f) d).

Lemma search_pred_mentions q d :
  search_pred (JsString.toLowerCase q) d = true <-> mentions q d.
Proof.
  unfold search_pred, mentions. rewrite orb_true_iff, !JsString.includes_spec. done.
Qed.

(** The guards of the three stages, as one test. *)
Definition matchesb (f : Filters) (d : Destination) : bool :=
  (negb (JsString.truthy (regionFilter f)) || region_pred (regionFilter f) d) &&
  ((negb (JsString.truthy (interestFilter f)) || interest_pred (interestFilter f) d) &&
   (negb (JsString.truthy (searchQuery f))
    || search_pred (lowered_query (searchQuery f)) d)).

Lemma guard_spec (g : string) (b : bool) (P : Prop) :
  (b = true <-> P) -> (negb (JsString.truthy g) || b = true <-> g = "" \/ P).
Proof.
  intros HP. rewrite orb_true_iff, negb_true_iff, JsString.truthy_false, HP. done.
Qed.

Lemma matchesb_spec f d : matchesb f d = true <-> matches f d.
Proof.
  unfold matchesb, matches, region_pred, interest_pred, JsArray.includes.
  rewrite !andb_true_iff, (guard_spec _ _ _ (String.eqb_eq _ _)),
    (guard_spec _ _ _ (bool_decide_eq_true _)),
    (guard_spec _ _ _ (search_pred_mentions _ _)).
  tauto.
Qed.

#[export] Instance matches_dec f d : Decision (matches f d).
Proof. pose proof JsString.substring_dec. unfold matches, mentions. apply _. Defined.

(** The setters of the three cells, as updates of the record. *)
Definition with_region (f : Filters) (v : string) : Filters :=
  {| regionFilter := v; interestFilter := interestFilter f; searchQuery := searchQuery f |}.
Definition with_interest (f : Filters) (v : string) : Filters :=
  {| regionFilter := regionFilter f; interestFilter := v; searchQuery := searchQuery f |}.
Definition with_search (f : Filters) (v : string) : Filters :=
  {| regionFilter := regionFilter f; interestFilter := interestFilter f; searchQuery := v |}.

(** ** The stages as one filter *)

Lemma applyFilters_as_filter c f : applyFilters c f = List.filter (matchesb f) c.
Proof.
  unfold applyFilters, region_stage, interest_stage, search_stage.
  rewrite !guarded_filter_as_filter, !filter_filter_andb. done.
Qed.

Lemma applyFilters_In_iff c f d :
  In d (applyFilters c f) <-> In d c /\ matches f d.
Proof. rewrite applyFilters_as_filter, filter_In, matchesb_spec. done. Qed.

Lemma matchesb_ext f g c :
  (forall d, matchesb f d = matchesb g d) -> applyFilters c f = applyFilters c g.
Proof. intros H. rewrite !applyFilters_as_filter. apply filter_ext_in. auto. Qed.

(** ** The interface the page relies on

    The page calls its filter on the catalog and displays the result;
    its invariants need only that the result is a sublist of the
    catalog, and that the empty filter state gives the whole catalog.
    [applyFilters] provides both. *)
Class FilterLaws (query : list Destination -> Filters -> list Destination) := {
  query_sublist c f : query c f `sublist_of` c;
  query_emptyFilters c : query c emptyFilters = c
}.

#[export] Instance applyFilters_laws : FilterLaws applyFilters.
Proof.
  split; [|reflexivity]. intros c f. rewrite applyFilters_as_filter. apply filter_sublist.
Qed.

(** C1: refinement.  The three guarded stages of [applyFilters] compute
    exactly the sublist of the catalog whose elements satisfy the
    abstract specification [matches]. *)
Theorem applyFilters_refines c f : applyFilters c f = filter (matches f) c.
Proof. rewrite applyFilters_as_filter. apply filter_bool_prop, matchesb_spec. Qed.

(** C15: with the three filter values empty, the result is the whole
    catalog in its order. *)
Theorem applyFilters_emptyFilters c : applyFilters c emptyFilters = c.
Proof. reflexivity. Qed.

Lemma matchesb_region_absent f r d :
  r <> "" -> region d <> r -> matchesb (with_region f r) d = false.
Proof.
  intros Hr Hd. unfold matchesb, region_pred; simpl.
  destruct r as [|c r]; [done|]. simpl. rewrite (proj2 (String.eqb_neq _ _) Hd). done.
Qed.

(** Filter cells whose region no destination has select nothing. *)
Lemma applyFilters_region_cell_absent c g :
  regionFilter g <> "" -> (forall d, In d c -> region d <> regionFilter g) ->
  applyFilters c g = [].
Proof.
  destruct g as [r i q]; simpl. intros Hr Hc. rewrite applyFilters_as_filter.
  apply filter_all_false. intros d Hd. apply (matchesb_region_absent {| regionFilter := r; interestFilter := i; searchQuery := q |}); auto.
Qed.

(** C13: a non-empty region that no destination of the catalog has gives
    the empty result, whatever the other filter values. *)
Theorem applyFilters_region_absent c f r :
  r <> "" -> (forall d, In d c -> region d <> r) ->
  applyFilters c (with_region f r) = [].
Proof.
  intros Hr Hc. by apply applyFilters_region_cell_absent.
Qed.

(** C14: with only a non-empty interest set, a destination is in the
    result exactly when it is in the catalog and lists that interest. *)
Theorem applyFilters_interest c i d :
  i <> "" ->
  In d (applyFilters c (with_interest emptyFilters i)) <-> In d c /\ i ∈ interests d.
Proof.
  intros Hi. rewrite applyFilters_In_iff. unfold matches; simpl. naive_solver.
Qed.

(** C7: the search ignores case: two queries with the same lower-case
    form give the same result. *)
Theorem applyFilters_search_case c f q1 q2 :
  JsString.toLowerCase q1 = JsString.toLowerCase q2 ->
  applyFilters c (with_search f q1) = applyFilters c (with_search f q2).
Proof.
  intros Hq. apply matchesb_ext. intros d. unfold matchesb, lowered_query; simpl.
  rewrite <- (JsString.truthy_toLowerCase q1), <- (JsString.truthy_toLowerCase q2), Hq.
  done.
Qed.

(** ** The scenarios of the spec, on the seed catalog *)

(** ** Witnesses *)

Lemma applyFilters_region_absent_witness :
  applyFilters destinations (with_region emptyFilters "Antarctica") = [].
Proof.
  apply applyFilters_region_absent; [discriminate|].
  intros d Hd. simpl in Hd.
  repeat (destruct Hd as [<- | Hd]; [discriminate|]). destruct Hd.
Defined.

Lemma applyFilters_interest_witness :
  In kona (applyFilters destinations (with_interest emptyFilters "Running"))
  <-> In kona destinations /\ "Running" ∈ interests kona.
Proof. apply applyFilters_interest. discriminate. Defined.

Lemma applyFilters_search_case_witness :
  applyFilters destinations (with_search emptyFilters "MALLORCA")
  = applyFilters destinations (with_search emptyFilters "mallorca").
Proof. apply applyFilters_search_case. vm_compute. reflexivity. Defined.

End Filter.
