(* ===== verification/Page.v ===== *)
(** * The [DestinationsPage] component as a state machine

    The client component of [src/app/destinations/page.tsx]
    (lines 141-396) keeps four React state cells: [filteredDestinations]
    and the three filter cells.  Each change handler stores its value and
    schedules [setTimeout(() => applyFilters(), 0)]; the callback is the
    [applyFilters] closure of the render that ran the handler, so it
    filters with the cells of that render.  The state of the model is the
    committed render plus the FIFO queue of pending callbacks, each
    recorded by the filter cells it captured.  An event is a user action
    or the run of the oldest callback; [reachable] closes the initial
    render under events in any interleaving.

    The filter is a parameter [query] of the component, constrained only
    by the interface [FilterLaws] of [Filter]; the invariants are proved
    against the interface and stated for the page that calls
    [applyFilters]: the display lags one change, each change adds one
    pending callback and a reset cancels none, a region no destination
    has (the "all" item) empties every later callback's list, and the
    queue drains in order. *)

From S2P Require Import Prelude JsString JsArray Catalog Filter.
Import Catalog Filter.

Module DestinationsPage.
Local Open Scope string_scope.

(** The committed render and the pending [setTimeout] callbacks, oldest
    first. *)
Record PageState := {
  filteredDestinations : list Destination;
  filters : Filters;
  timeouts : list Filters
}.

(** [useState(destinations)] and [useState("")] three times. *)
Definition initialState : PageState :=
  {| filteredDestinations := destinations; filters := emptyFilters; timeouts := [] |}.

(** [setFilter(value); setTimeout(() => applyFilters(), 0)]: the new
    cells are committed, and the callback keeps the cells of the render
    that ran the handler. *)
Definition set_and_schedule (s : PageState) (f' : Filters) : PageState :=
  {| filteredDestinations := filteredDestinations s;
     filters := f';
     timeouts := timeouts s ++ [filters s] |}.

(** [handleRegionChange(value)] (lines 177-180) *)
Definition handleRegionChange (value : string) (s : PageState) : PageState :=
  set_and_schedule s (with_region (filters s) value).

(** [handleInterestChange(value)] (lines 182-185) *)
Definition handleInterestChange (value : string) (s : PageState) : PageState :=
  set_and_schedule s (with_interest (filters s) value).

(** [handleSearchChange(e)] with [e.target.value = value] (lines 187-190) *)
Definition handleSearchChange (value : string) (s : PageState) : PageState :=
  set_and_schedule s (with_search (filters s) value).

(** [resetFilters()] (lines 193-198): clears the three cells and shows the
    catalog at once; it cancels no pending callback. *)
Definition resetFilters (s : PageState) : PageState :=
  {| filteredDestinations := destinations; filters := emptyFilters; timeouts := timeouts s |}.

(** The user actions the page handles, and the run of the oldest
    pending callback. *)
Inductive Event :=
| RegionChange (value : string)
| InterestChange (value : string)
| SearchChange (value : string)
| ResetClick
| TimeoutFires.

Section WithQuery.
Context (query : list Destination -> Filters -> list Destination).

(** The oldest pending callback runs [applyFilters] of its render:
    [setFilteredDestinations(results)] with the cells it captured. *)
Definition runTimeout (s : PageState) : option PageState :=
  match timeouts s with
  | [] => None
  | captured :: rest =>
      Some {| filteredDestinations := query destinations captured;
              filters := filters s;
              timeouts := rest |}
  end.

Definition dispatch (s : PageState) (e : Event) : option PageState :=
  match e with
  | RegionChange v => Some (handleRegionChange v s)
  | InterestChange v => Some (handleInterestChange v s)
  | SearchChange v => Some (handleSearchChange v s)
  | ResetClick => Some (resetFilters s)
  | TimeoutFires => runTimeout s
  end.

Fixpoint run (s : PageState) (es : list Event) : option PageState :=
  match es with
  | [] => Some s
  | e :: es' => match dispatch s e with Some s' => run s' es' | None => None end
  end.

Inductive reachable : PageState -> Prop :=
| reachable_init : reachable initialState
| reachable_step s e s' : reachable s -> dispatch s e = Some s' -> reachable s'.
End WithQuery.

Lemma run_reachable query s es s' :
  reachable query s -> run query s es = Some s' -> reachable query s'.
Proof.
  revert s; induction es as [|e es IH]; intros s Hs; simpl; [by intros Hr; invc Hr|].
  destruct (dispatch query s e) as [s1|] eqn:Hd; [|done].
  intros Hr. eapply IH; [|exact Hr]. by eapply reachable_step.
Qed.

(** The number of filter changes and of callback runs in a list of
    events. *)
Definition is_change (e : Event) : bool :=
  match e with
  | RegionChange _ | InterestChange _ | SearchChange _ => true
  | ResetClick | TimeoutFires => false
  end.

Definition is_timeout (e : Event) : bool :=
  match e with TimeoutFires => true | _ => false end.

(** ** Runs where every change is followed by its callback *)

(** A change of one filter cell, the value its handler receives. *)
Inductive Change :=
| SetRegion (value : string)
| SetInterest (value : string)
| SetSearch (value : string).

Definition change_event (c : Change) : Event :=
  match c with
  | SetRegion v => RegionChange v
  | SetInterest v => InterestChange v
  | SetSearch v => SearchChange v
  end.

(** The filter cells after the change, as the specification of the page
    expects them to be shown. *)
Definition apply_change (f : Filters) (c : Change) : Filters :=
  match c with
  | SetRegion v => with_region f v
  | SetInterest v => with_interest f v
  | SetSearch v => with_search f v
  end.

(** The user waits for the callback after each change. *)
Definition settled (cs : list Change) : list Event :=
  flat_map (fun c => [change_event c; TimeoutFires]) cs.

(** The displayed list is the catalog filtered by some filter state. *)
Definition shows_query (query : list Destination -> Filters -> list Destination)
    (s : PageState) : Prop :=
  exists g, filteredDestinations s = query destinations g.

Section Laws.
Context {query : list Destination -> Filters -> list Destination} `{!FilterLaws query}.

Lemma shows_query_catalog s :
  filteredDestinations s = destinations -> shows_query query s.
Proof. intros H. exists emptyFilters. by rewrite query_emptyFilters. Qed.

Lemma dispatch_shows_query s e s' :
  shows_query query s -> dispatch query s e = Some s' -> shows_query query s'.
Proof.
  intros Hs. destruct e; simpl; intros Hd; invc Hd; try exact Hs.
  - by apply shows_query_catalog.
  - revert H0. unfold runTimeout. destruct (timeouts s) as [|g rest]; [done|].
    intros Hd; invc Hd. by exists g.
Qed.

Lemma reachable_shows_query s : reachable query s -> shows_query query s.
Proof.
  induction 1 as [|s e s' _ IH Hd]; [by apply shows_query_catalog|].
  eauto using dispatch_shows_query.
Qed.

Lemma reachable_sublist s :
  reachable query s -> filteredDestinations s `sublist_of` destinations.
Proof.
  intros Hr. destruct (reachable_shows_query s Hr) as [g ->]. apply query_sublist.
Qed.

Lemma schedule_then_timeout s f' :
  timeouts s = [] ->
  runTimeout query (set_and_schedule s f') =
  Some {| filteredDestinations := query destinations (filters s);
          filters := f'; timeouts := [] |}.
Proof. intros H. unfold runTimeout, set_and_schedule; simpl. by rewrite H. Qed.

Lemma run_settled_cons s c cs :
  timeouts s = [] ->
  run query s (settled (c :: cs)) =
  run query {| filteredDestinations := query destinations (filters s);
               filters := apply_change (filters s) c; timeouts := [] |} (settled cs).
Proof.
  intros H. destruct c; simpl;
    unfold handleRegionChange, handleInterestChange, handleSearchChange;
    rewrite schedule_then_timeout by done; reflexivity.
Qed.

Lemma dispatch_pending s e s' :
  dispatch query s e = Some s' ->
  List.length (timeouts s') + (if is_timeout e then 1 else 0)
  = List.length (timeouts s) + (if is_change e then 1 else 0).
Proof.
  destruct e; simpl; intros Hd;
    [invc Hd; simpl; rewrite ?length_app; simpl; lia ..|].
  unfold runTimeout in Hd. destruct (timeouts s) as [|g rest]; [done|].
  invc Hd. simpl. lia.
Qed.

Lemma reachable_displayed_wf s :
  reachable query s -> catalog_wf (filteredDestinations s).
Proof.
  intros Hr. eapply catalog_wf_sublist; [by apply reachable_sublist | apply destinations_wf].
Qed.

Lemma run_timeouts s :
  exists s', run query s (repeat TimeoutFires (List.length (timeouts s))) = Some s' /\
    timeouts s' = [] /\ filters s' = filters s /\
    filteredDestinations s' =
      match last (timeouts s) with
      | Some g => query destinations g
      | None => filteredDestinations s
      end.
Proof.
  destruct s as [shown f pending]; simpl.
  revert shown; induction pending as [|g rest IH]; intros shown; simpl.
  - by eexists.
  - destruct (IH (query destinations g)) as (s' & Hrun & Ht & Hf & Hs).
    exists s'. split_and!; try done. rewrite Hs. destruct rest as [|h t]; [reflexivity|].
    change (last (g :: h :: t)) with (last (h :: t)).
    destruct (last (h :: t)) eqn:E; [reflexivity|]. by apply last_None in E.
Qed.
End Laws.

(** ** The page that calls [applyFilters] *)

(** C9: the pending callbacks drain: running as many timeouts as are
    pending empties the queue, keeps the filter cells, and displays the
    result of the last scheduled callback (or the current list when
    none was pending). *)
Theorem timeouts_drain s :
  exists s', run applyFilters s (repeat TimeoutFires (List.length (timeouts s))) = Some s' /\
    timeouts s' = [] /\ filters s' = filters s /\
    filteredDestinations s' =
      match last (timeouts s) with
      | Some g => applyFilters destinations g
      | None => filteredDestinations s
      end.
Proof. apply run_timeouts. Qed.

(** The events that leave the region cell alone: every event but a
    region change and a reset. *)
Definition keeps_region (e : Event) : bool :=
  match e with
  | RegionChange _ | ResetClick => false
  | InterestChange _ | SearchChange _ | TimeoutFires => true
  end.

(** One event that keeps the region: the cell and every pending callback
    still hold [r], and a callback run displays the empty list. *)
Lemma dispatch_absent_region r s e s' :
  r <> "" -> (forall d, In d destinations -> region d <> r) ->
  regionFilter (filters s) = r -> Forall (fun g => regionFilter g = r) (timeouts s) ->
  keeps_region e = true -> dispatch applyFilters s e = Some s' ->
  regionFilter (filters s') = r /\ Forall (fun g => regionFilter g = r) (timeouts s') /\
  filteredDestinations s' = if is_timeout e then [] else filteredDestinations s.
Proof.
  intros Hr Hc Hf Ht Hk. destruct e as [v|v|v| |]; try discriminate Hk; simpl.
  1,2: intros Hd; invc Hd; simpl; split_and!; try done;
       apply Forall_app; split; [done | by constructor].
  unfold runTimeout. destruct (timeouts s) as [|g rest]; [done|]. intros Hd; invc Hd.
  apply Forall_cons in Ht as [Hg Ht]. simpl. split_and!; try done.
  apply applyFilters_region_cell_absent; rewrite Hg; done.
Qed.

(** C2: the page implements the filter one change late.  From a render
    with no pending callback, after any sequence of filter changes, each
    followed by its callback, the committed cells are the result of all
    the changes, and the page displays [applyFilters] of the cells as
    they were before the last change. *)
Theorem settled_changes_lag_one s cs c :
  timeouts s = [] ->
  run applyFilters s (settled (cs ++ [c])) =
  Some {| filteredDestinations := applyFilters destinations (foldl apply_change (filters s) cs);
          filters := apply_change (foldl apply_change (filters s) cs) c;
          timeouts := [] |}.
Proof.
  revert s; induction cs as [|c0 cs IH]; intros s H; simpl app;
    rewrite run_settled_cons by done; [reflexivity|].
  by apply IH.
Qed.

(** C3: the pending callbacks are counted exactly: along any run, the
    queue grows by one per filter change and shrinks by one per callback
    run, so a run never runs more callbacks than were pending or
    scheduled. *)
Theorem run_pending_count s es s' :
  run applyFilters s es = Some s' ->
  List.length (timeouts s') + List.length (List.filter is_timeout es)
  = List.length (timeouts s) + List.length (List.filter is_change es).
Proof.
  revert s; induction es as [|e es IH]; intros s; simpl; [by intros Hr; invc Hr|].
  destruct (dispatch applyFilters s e) as [s1|] eqn:Hd; [|done].
  intros Hr. pose proof (dispatch_pending _ _ _ Hd) as Hp. specialize (IH _ Hr).
  destruct (is_timeout e), (is_change e); simpl; lia.
Qed.

(** C4: once a region that no destination has, such as the value
    ["all"] of the "All Regions" item, is committed and the callbacks
    pending then captured it too, the page shows no destination after
    every callback that runs, whatever interest or search the user then
    chooses, until the region is changed again or the filters are
    reset; before any callback runs it keeps the list it had. *)
Theorem absent_region_sticks r s es s' :
  r <> "" -> (forall d, In d destinations -> region d <> r) ->
  regionFilter (filters s) = r -> Forall (fun g => regionFilter g = r) (timeouts s) ->
  forallb keeps_region es = true -> run applyFilters s es = Some s' ->
  filteredDestinations s' = if existsb is_timeout es then [] else filteredDestinations s.
Proof.
  intros Hr Hc. revert s. induction es as [|e es IH]; intros s Hf Ht Hk Hrun; simpl in *.
  - by invc Hrun.
  - apply andb_true_iff in Hk as [He Hk].
    destruct (dispatch applyFilters s e) as [s1|] eqn:Hd; [|done].
    destruct (dispatch_absent_region r s e s1 Hr Hc Hf Ht He Hd) as (Hf1 & Ht1 & Hs1).
    rewrite (IH s1 Hf1 Ht1 Hk Hrun), Hs1. by destruct (is_timeout e), (existsb is_timeout es).
Qed.

(** ** Witnesses *)

Lemma absent_region_sticks_witness :
  let s := {| filteredDestinations := destinations;
              filters := with_region emptyFilters "all"; timeouts := [] |} in
  let es := [InterestChange "Cycling"; TimeoutFires] in
  let s' := {| filteredDestinations := applyFilters destinations (with_region emptyFilters "all");
               filters := with_interest (with_region emptyFilters "all") "Cycling";
               timeouts := [] |} in
  filteredDestinations s' = if existsb is_timeout es then [] else filteredDestinations s.
Proof.
  apply (absent_region_sticks "all"); [discriminate | | reflexivity | constructor | reflexivity | reflexivity].
  intros d Hd. apply (List.Forall_forall (fun d => region d <> "all") destinations); [|exact Hd].
  repeat constructor; discriminate.
Defined.

Lemma run_pending_count_witness :
  List.length (timeouts (handleRegionChange "Africa" (handleRegionChange "Europe" initialState)))
  + List.length (List.filter is_timeout [RegionChange "Europe"; RegionChange "Africa"])
  = List.length (timeouts initialState)
    + List.length (List.filter is_change [RegionChange "Europe"; RegionChange "Africa"]).
Proof. apply run_pending_count. reflexivity. Defined.

Lemma settled_changes_lag_one_witness :
  run applyFilters initialState (settled ([SetRegion "Europe"] ++ [SetInterest "Cycling"])) =
  Some {| filteredDestinations :=
            applyFilters destinations (foldl apply_change (filters initialState) [SetRegion "Europe"]);
          filters := apply_change (foldl apply_change (filters initialState) [SetRegion "Europe"])
                       (SetInterest "Cycling");
          timeouts := [] |}.
Proof. apply settled_changes_lag_one. reflexivity. Defined.

End DestinationsPage.
