(* ===== verification/View.v ===== *)
(** * What the destinations page renders

    The JSX of [DestinationsPage] ([src/app/destinations/page.tsx],
    lines 148-149 and 236-379) as functions of the committed state: the
    select options [regions] and [interests], the heading, labels and
    controlled [Select]s and [Input] of the filter panel, and the result area, which is the
    "No destinations found" message or one [Card] per displayed
    destination.  A [Select] shows its placeholder when its value is
    [""], the label of the item whose value it holds, and nothing
    otherwise; this is the contract of the [Select] component the page
    imports.  [emits] is the contract of the controls: a [Select]
    reports one of its items' values, and only a new one, the [Input]
    only a changed text; the page with its tabs ([Tabs]) handles only
    such events.  The theorems check the React keys of every reachable
    render, the round trip from a control to the state and back, the
    number of cards, and that every option of a select selects some
    destination. *)

From S2P Require Import Prelude JsString JsArray Catalog Filter Page.
Import Catalog Filter DestinationsPage.

Module DestinationsView.
Local Open Scope string_scope.

(** [const regions = [...new Set(destinations.map((dest) => dest.region))]] *)
Definition regions : list string :=
  JsArray.set_spread (List.map region destinations).

(** [const interests = [...new Set(destinations.flatMap((dest) => dest.interests))]] *)
Definition interests : list string :=
  JsArray.set_spread (flat_map Catalog.interests destinations).

(** ** The filter panel (lines 242-289) *)

(** A [<SelectItem value=...>label</SelectItem>]. *)
Record SelectItem := { item_value : string; item_label : string }.

(** The items of the two selects: [<SelectItem value="all">] and then
    one item per value of [regions] or [interests], whose [key], [value]
    and text are the value. *)
Definition regionItems : list SelectItem :=
  {| item_value := "all"; item_label := "All Regions" |}
  :: List.map (fun r => {| item_value := r; item_label := r |}) regions.

Definition interestItems : list SelectItem :=
  {| item_value := "all"; item_label := "All Interests" |}
  :: List.map (fun i => {| item_value := i; item_label := i |}) interests.

Inductive SelectDisplay :=
| ShowsPlaceholder (text : string)
| ShowsItem (label : string)
| ShowsNothing.

(** [<Select value={value}><SelectValue placeholder=...>]: what the
    trigger of a controlled select shows. *)
Definition select_display (placeholder : string) (items : list SelectItem)
    (value : string) : SelectDisplay :=
  if String.eqb value "" then ShowsPlaceholder placeholder
  else match List.find (fun it => String.eqb (item_value it) value) items with
       | Some it => ShowsItem (item_label it)
       | None => ShowsNothing
       end.

Definition display_text (d : SelectDisplay) : string :=
  match d with
  | ShowsPlaceholder t => t
  | ShowsItem l => l
  | ShowsNothing => ""
  end.

(** The heading, the labels and the texts of the filter panel (lines
    239-287) and of the empty result (lines 293-299). *)
Definition filterHeading : string := "Filter Destinations".
Definition searchLabel : string := "Search".
Definition searchPlaceholder : string := "Search destinations...".
Definition regionLabel : string := "Region".
Definition interestLabel : string := "Interest".
Definition resetLabel : string := "Reset Filters".
Definition noResultsTitle : string := "No destinations found".
Definition noResultsHint : string := "Try adjusting your filters to see more results".

(** [<Select value={regionFilter}>] with placeholder ["All Regions"]. *)
Definition regionSelect (s : PageState) : SelectDisplay :=
  select_display "All Regions" regionItems (regionFilter (filters s)).

(** [<Select value={interestFilter}>] with placeholder ["All Interests"]. *)
Definition interestSelect (s : PageState) : SelectDisplay :=
  select_display "All Interests" interestItems (interestFilter (filters s)).

(** [<Input value={searchQuery}>] *)
Definition searchInput (s : PageState) : string := searchQuery (filters s).

(** The events the controls of the panel deliver to their handlers
    (lines 245-287).  A [Select] calls [onValueChange] with the value of
    one of its items, and only when it differs from its [value] prop;
    the [Input] calls [onChange] when its text changes; the [Reset
    Filters] buttons call [resetFilters] on every click.  A callback is
    no control's event: it runs when one is pending. *)
Definition emits (s : PageState) (e : Event) : bool :=
  match e with
  | RegionChange v =>
      bool_decide (v ∈ List.map item_value regionItems) && negb (String.eqb v (regionFilter (filters s)))
  | InterestChange v =>
      bool_decide (v ∈ List.map item_value interestItems) && negb (String.eqb v (interestFilter (filters s)))
  | SearchChange v => negb (String.eqb v (searchQuery (filters s)))
  | ResetClick | TimeoutFires => true
  end.

(** ** The result area (lines 292-379) *)

(** One [<Card key={destination.id}>]: the image source and its [alt],
    the title and region, the [Badge key={interest}] list, the
    description, the tips keyed by their index and the five itinerary
    rows. *)
Record Card := {
  card_key : nat;
  card_image : string;
  card_alt : string;
  card_title : string;
  card_region : string;
  card_badges : list string;
  card_description : string;
  card_tips : list (nat * string);
  card_days : list (string * string)
}.

Inductive View :=
| NoDestinationsFound
| DestinationGrid (cards : list Card).

(** [destination.image || "/placeholder.svg"] *)
Definition image_src (d : Destination) : string :=
  if JsString.truthy (image d) then image d else "/placeholder.svg".

Definition render_card (d : Destination) : Card :=
  {| card_key := id d;
     card_image := image_src d;
     card_alt := name d;
     card_title := name d;
     card_region := region d;
     card_badges := Catalog.interests d;
     card_description := description d;
     card_tips := zip (seq 0 (List.length (tips d))) (tips d);
     card_days := [("Day 1:", day1 (itinerary d)); ("Day 2:", day2 (itinerary d));
                   ("Day 3:", day3 (itinerary d)); ("Day 4:", day4 (itinerary d));
                   ("Day 5:", day5 (itinerary d))] |}.

(** [filteredDestinations.length === 0 ? <no results> : <grid>] *)
Definition render (s : PageState) : View :=
  if Nat.eqb (List.length (filteredDestinations s)) 0 then NoDestinationsFound
  else DestinationGrid (List.map render_card (filteredDestinations s)).

(** ** Lemmas *)

Lemma render_cases s :
  (filteredDestinations s = [] /\ render s = NoDestinationsFound) \/
  (filteredDestinations s <> [] /\
   render s = DestinationGrid (List.map render_card (filteredDestinations s))).
Proof.
  unfold render. destruct (filteredDestinations s) as [|d l]; simpl; [left | right]; done.
Qed.

Lemma items_wf :
  NoDup (List.map item_value regionItems) /\ NoDup (List.map item_value interestItems) /\
  Forall (fun it => item_value it <> "") (regionItems ++ interestItems).
Proof.
  split_and!; apply (bool_decide_eq_true_1 _); vm_compute; reflexivity.
Qed.

Lemma find_item items it :
  NoDup (List.map item_value items) -> it ∈ items ->
  List.find (fun x => String.eqb (item_value x) (item_value it)) items = Some it.
Proof.
  induction items as [|x items IH]; simpl; intros Hnd Hit; [by apply not_elem_of_nil in Hit|].
  apply NoDup_cons in Hnd as [Hx Hnd]. apply elem_of_cons in Hit as [->|Hit].
  - by rewrite String.eqb_refl.
  - destruct (String.eqb_spec (item_value x) (item_value it)) as [E|_]; [|by apply IH].
    exfalso. apply Hx. rewrite E. by apply list_elem_of_fmap_2.
Qed.

Lemma select_display_item placeholder items it :
  NoDup (List.map item_value items) -> it ∈ items -> item_value it <> "" ->
  select_display placeholder items (item_value it) = ShowsItem (item_label it).
Proof.
  intros Hnd Hit Hne. unfold select_display.
  rewrite (proj2 (String.eqb_neq _ _) Hne), find_item by done. done.
Qed.

Lemma applyFilters_nonempty c f d : In d c -> matches f d -> applyFilters c f <> [].
Proof.
  intros Hd Hm Hnil. pose proof (proj2 (applyFilters_In_iff c f d) (conj Hd Hm)) as Hin.
  by rewrite Hnil in Hin.
Qed.
(** ** The React keys and the size of the result area *)

(** C6: the React keys of every reachable render are unique: the cards
    of the grid have distinct [destination.id] keys, and within a card
    the [Badge] keys (the interests) and the tip keys (the indices) are
    distinct; the empty-result message shows exactly when nothing
    matches. *)
Theorem render_keys_unique s :
  reachable applyFilters s ->
  match render s with
  | NoDestinationsFound => filteredDestinations s = []
  | DestinationGrid cards =>
      NoDup (List.map card_key cards) /\
      Forall (fun c => NoDup (card_badges c) /\ NoDup (card_tips c).*1) cards
  end.
Proof.
  intros Hr. destruct (reachable_displayed_wf s Hr) as [Hids Hint].
  rewrite List.Forall_forall in Hint.
  destruct (render_cases s) as [[E ->] | [_ ->]]; [done|]. split.
  - by rewrite List.map_map.
  - apply List.Forall_forall. intros c Hc. apply in_map_iff in Hc as (d & <- & Hd). simpl.
    split; [by apply Hint|].
    rewrite fst_zip by (rewrite length_seq; lia). apply NoDup_seq.
Qed.

(** C17: bounds of the result area: in every reachable state the page
    shows between one and six cards, one per displayed destination, or
    the empty-result message; every card has an image text (its name),
    exactly five itinerary rows and one tip row per tip. *)
Theorem render_size s :
  reachable applyFilters s ->
  match render s with
  | NoDestinationsFound => True
  | DestinationGrid cards =>
      1 <= List.length cards <= 6 /\
      List.length cards = List.length (filteredDestinations s) /\
      Forall (fun c => card_alt c <> "" /\ List.length (card_days c) = 5) cards
  end.
Proof.
  intros Hr. pose proof (reachable_sublist s Hr) as Hsub.
  destruct (render_cases s) as [[_ ->] | [Hne ->]]; [done|].
  rewrite length_map. pose proof (sublist_length _ _ Hsub) as Hlen. simpl in Hlen.
  split_and!.
  - destruct (filteredDestinations s); [done | simpl; lia].
  - exact Hlen.
  - done.
  - apply List.Forall_forall. intros c Hc. apply in_map_iff in Hc as (d & <- & Hd).
    simpl. split; [|done].
    assert (Hdc : In d destinations) by (eapply sublist_In; eauto).
    simpl in Hdc. repeat destruct Hdc as [<- | Hdc]; try discriminate. destruct Hdc.
Qed.

(** ** The filter panel *)

(** C8: round trip between the controls and the state: choosing any
    item of a select makes that select show the item, typing a value in
    the search input makes it show the value, and a reset brings both
    selects back to their placeholders and empties the input. *)
Theorem controls_roundtrip s :
  (forall it, it ∈ regionItems ->
     regionSelect (handleRegionChange (item_value it) s) = ShowsItem (item_label it)) /\
  (forall it, it ∈ interestItems ->
     interestSelect (handleInterestChange (item_value it) s) = ShowsItem (item_label it)) /\
  (forall v, searchInput (handleSearchChange v s) = v) /\
  regionSelect (resetFilters s) = ShowsPlaceholder "All Regions" /\
  interestSelect (resetFilters s) = ShowsPlaceholder "All Interests" /\
  searchInput (resetFilters s) = "".
Proof.
  destruct items_wf as (Hr & Hi & Hne). rewrite List.Forall_forall in Hne.
  split_and!; try done.
  - intros it Hit. apply select_display_item; [done..|].
    apply Hne, in_or_app. left. by apply list_elem_of_In.
  - intros it Hit. apply select_display_item; [done..|].
    apply Hne, in_or_app. right. by apply list_elem_of_In.
Qed.

(** C16: every region and every interest offered by the selects (other
    than the "all" item) selects at least one destination. *)
Theorem select_options_nonempty :
  (forall r, r ∈ regions -> applyFilters destinations (with_region emptyFilters r) <> []) /\
  (forall i, i ∈ interests -> applyFilters destinations (with_interest emptyFilters i) <> []).
Proof.
  unfold regions, interests. split; intros x Hx;
    rewrite JsArray.set_spread_elem_of, list_elem_of_In in Hx.
  - apply in_map_iff in Hx as (d & <- & Hd).
    apply (applyFilters_nonempty _ _ d Hd). unfold matches; simpl. auto.
  - apply in_flat_map in Hx as (d & Hd & Hx).
    apply (applyFilters_nonempty _ _ d Hd). unfold matches; simpl.
    rewrite list_elem_of_In. auto.
Qed.

(** ** Witnesses *)

Lemma render_keys_unique_witness :
  match render (handleRegionChange "Europe" initialState) with
  | NoDestinationsFound => filteredDestinations (handleRegionChange "Europe" initialState) = []
  | DestinationGrid cards =>
      NoDup (List.map card_key cards) /\
      Forall (fun c => NoDup (card_badges c) /\ NoDup (card_tips c).*1) cards
  end.
Proof.
  apply render_keys_unique.
  apply (run_reachable _ initialState [RegionChange "Europe"]); [constructor | reflexivity].
Defined.

Lemma render_size_witness :
  match render (handleRegionChange "Europe" initialState) with
  | NoDestinationsFound => True
  | DestinationGrid cards =>
      1 <= List.length cards <= 6 /\
      List.length cards = List.length (filteredDestinations (handleRegionChange "Europe" initialState)) /\
      Forall (fun c => card_alt c <> "" /\ List.length (card_days c) = 5) cards
  end.
Proof.
  apply render_size.
  apply (run_reachable _ initialState [RegionChange "Europe"]); [constructor | reflexivity].
Defined.

Lemma controls_roundtrip_witness :
  let s := initialState in
  (forall it, it ∈ regionItems ->
     regionSelect (handleRegionChange (item_value it) s) = ShowsItem (item_label it)) /\
  (forall it, it ∈ interestItems ->
     interestSelect (handleInterestChange (item_value it) s) = ShowsItem (item_label it)) /\
  (forall v, searchInput (handleSearchChange v s) = v) /\
  regionSelect (resetFilters s) = ShowsPlaceholder "All Regions" /\
  interestSelect (resetFilters s) = ShowsPlaceholder "All Interests" /\
  searchInput (resetFilters s) = "".
Proof. apply controls_roundtrip. Defined.
End DestinationsView.
