(* ===== verification/Tabs.v ===== *)
(** * The tabs of the destination cards

    Each [Card] of [src/app/destinations/page.tsx] holds an uncontrolled
    [<Tabs defaultValue="tips">] (lines 332-374) with two triggers,
    "Travel Tips" and "Sample Itinerary", and one [TabsContent] per
    value.  The active tab is state of the [Tabs] instance, not of the
    page: it lives as long as the card is mounted.  React keeps a card
    mounted across renders while its [key={destination.id}] stays in the
    list (line 303), mounts a card whose key is new with the default
    value, and unmounts the cards whose keys are gone, all of them when
    the grid gives way to the "No destinations found" message.

    The state of the model is the committed page state of [Page] and a
    [gmap] from the keys of the mounted cards to their active tab.
    [reconcile] is React's keyed reconciliation of the card list; a page
    event commits a render and reconciles, a click on a trigger changes
    the tab of one mounted card.  The theorems show that the map always
    holds exactly the keys of the rendered cards, that a card that stays
    keeps its tab through any filtering, that a card that comes back is
    reset to its tips, and that from any state the user can bring the
    page back to a consistent render. *)

From stdpp Require Import gmap.
From S2P Require Import Prelude Catalog Filter Page View.
Import Catalog Filter DestinationsPage DestinationsView.

Module CardTabs.
Local Open Scope string_scope.

(** The values of the two [TabsTrigger]s (lines 334 and 337). *)
Inductive TabValue := TipsTab | ItineraryTab.

#[export] Instance TabValue_eq_dec : EqDecision TabValue.
Proof. solve_decision. Defined.

Definition tab_value (t : TabValue) : string :=
  match t with
  | TipsTab => "tips"
  | ItineraryTab => "itinerary"
  end.

(** The [TabsList] (lines 333-340): each trigger with its text. *)
Definition tab_triggers : list (TabValue * string) :=
  [(TipsTab, "Travel Tips"); (ItineraryTab, "Sample Itinerary")].

(** [<Tabs defaultValue="tips">] (line 332) *)
Definition defaultValue : TabValue := TipsTab.

(** The [TabsContent] whose value is active (lines 341-373): the tips
    keyed by their index, or the five itinerary rows. *)
Inductive Panel :=
| TipsPanel (tips : list (nat * string))
| ItineraryPanel (days : list (string * string)).

Definition tab_panel (c : Card) (t : TabValue) : Panel :=
  match t with
  | TipsTab => TipsPanel (card_tips c)
  | ItineraryTab => ItineraryPanel (card_days c)
  end.

(** The keys of the rendered cards, in order. *)
Definition rendered_keys (v : View) : list nat :=
  match v with
  | NoDestinationsFound => []
  | DestinationGrid cards => List.map card_key cards
  end.

(** The active tab of the card with key [k]: its state if it is mounted,
    the default value of a fresh [Tabs] otherwise. *)
Definition tab_of (m : gmap nat TabValue) (k : nat) : TabValue :=
  default defaultValue (m !! k).

(** React's reconciliation of the keyed card list: a key of the new
    render keeps the state it had, a new key starts from the default, a
    key that is not rendered any more is unmounted. *)
Definition reconcile (keys : list nat) (m : gmap nat TabValue) : gmap nat TabValue :=
  list_to_map (List.map (fun k => (k, tab_of m k)) keys).

Record UIState := { page : PageState; tabs : gmap nat TabValue }.

Inductive UIEvent :=
| PageEvent (e : Event)
| TabClick (key : nat) (t : TabValue).

(** A committed render of the page state [s], the cards reconciled
    against the tab states [m] of the previous render. *)
Definition commit (s : PageState) (m : gmap nat TabValue) : UIState :=
  {| page := s; tabs := reconcile (rendered_keys (render s)) m |}.

Definition initialUI : UIState := commit initialState ∅.

(** A page event, when the controls deliver it ([emits]), is handled by
    the page and committed; a click on a trigger reaches only a mounted
    card ([onValueChange] of its [Tabs]). *)
Definition ui_step (u : UIState) (e : UIEvent) : option UIState :=
  match e with
  | PageEvent e =>
      if emits (page u) e then
        match dispatch applyFilters (page u) e with
        | Some s' => Some (commit s' (tabs u))
        | None => None
        end
      else None
  | TabClick k t =>
      if bool_decide (k ∈ rendered_keys (render (page u)))
      then Some {| page := page u; tabs := <[k := t]> (tabs u) |}
      else None
  end.

Fixpoint ui_run (u : UIState) (es : list UIEvent) : option UIState :=
  match es with
  | [] => Some u
  | e :: es' => match ui_step u e with Some u' => ui_run u' es' | None => None end
  end.

Definition ui_rel (u u' : UIState) : Prop := exists e, ui_step u e = Some u'.

(** The panel a mounted card shows. *)
Definition shown_panel (u : UIState) (d : Destination) : Panel :=
  tab_panel (render_card d) (tab_of (tabs u) (id d)).

(** ** Reconciliation *)

Lemma lookup_reconcile keys m k :
  reconcile keys m !! k = if bool_decide (k ∈ keys) then Some (tab_of m k) else None.
Proof.
  unfold reconcile. induction keys as [|k' keys IH]; simpl; [done|].
  rewrite lookup_insert, IH. repeat case_decide; repeat case_bool_decide; subst;
    set_solver.
Qed.

Lemma dom_reconcile keys m : dom (reconcile keys m) = list_to_set keys.
Proof.
  apply set_eq. intros k. rewrite elem_of_dom, lookup_reconcile, elem_of_list_to_set.
  case_bool_decide; split; intros; naive_solver.
Qed.

Lemma tab_of_reconcile keys m k : k ∈ keys -> tab_of (reconcile keys m) k = tab_of m k.
Proof. intros Hk. unfold tab_of at 1. rewrite lookup_reconcile, bool_decide_eq_true_2; done. Qed.

Lemma tab_of_not_dom m k : k ∉ dom m -> tab_of m k = defaultValue.
Proof. rewrite not_elem_of_dom. unfold tab_of. by intros ->. Qed.

Lemma rendered_keys_render s : rendered_keys (render s) = List.map id (filteredDestinations s).
Proof.
  destruct (render_cases s) as [[-> ->] | [_ ->]]; simpl; [done|].
  by rewrite List.map_map.
Qed.

(** A page event is one the controls deliver, handled by the page and
    committed. *)
Lemma ui_page_step u e u' :
  ui_step u (PageEvent e) = Some u' ->
  emits (page u) e = true /\
  exists s', dispatch applyFilters (page u) e = Some s' /\ u' = commit s' (tabs u).
Proof.
  simpl. destruct (emits _ e); [|done].
  destruct (dispatch _ _ e) as [s'|]; intros Hs; invc Hs; eauto.
Qed.

(** ** The invariant of the mounted cards *)

Definition ui_inv (u : UIState) : Prop :=
  reachable applyFilters (page u) /\
  dom (tabs u) = list_to_set (rendered_keys (render (page u))).

Lemma ui_inv_init : ui_inv initialUI.
Proof. split; [constructor | apply dom_reconcile]. Qed.

Lemma ui_step_inv u e u' : ui_inv u -> ui_step u e = Some u' -> ui_inv u'.
Proof.
  intros [Hr Hd]. destruct e as [e|k t].
  - intros (_ & s' & E & ->)%ui_page_step. split; [by econstructor | apply dom_reconcile].
  - simpl. case_bool_decide as Hk; intros Hs; invc Hs. split; [done|]. simpl.
    rewrite dom_insert_L, Hd. apply set_eq. intros x.
    rewrite elem_of_union, elem_of_singleton, elem_of_list_to_set. naive_solver.
Qed.

Lemma ui_rel_inv u u' : rtc ui_rel u u' -> ui_inv u -> ui_inv u'.
Proof. induction 1 as [|u1 u2 u3 [e He] _ IH]; eauto using ui_step_inv. Qed.

Lemma ui_reachable_inv u : rtc ui_rel initialUI u -> ui_inv u.
Proof. intros Hr. eapply ui_rel_inv; [exact Hr | apply ui_inv_init]. Qed.

Lemma ui_run_rtc u es u' : ui_run u es = Some u' -> rtc ui_rel u u'.
Proof.
  revert u. induction es as [|e es IH]; intros u; simpl; [intros [= ->]; done|].
  destruct (ui_step u e) as [u1|] eqn:E; [|done]. intros Hr. econstructor; [by exists e | auto].
Qed.

(** Open the itineraries of Boulder and Mallorca, then choose Europe and
    Cycling, each change followed by its callback. *)
Definition lost_tab_events : list UIEvent :=
  [TabClick 1 ItineraryTab; TabClick 2 ItineraryTab;
   PageEvent (RegionChange "Europe"); PageEvent TimeoutFires;
   PageEvent (InterestChange "Cycling"); PageEvent TimeoutFires].

(** A page event keeps the tab state of every card it renders. *)
Lemma page_step_tab_of u e u' k :
  ui_step u (PageEvent e) = Some u' ->
  k ∈ List.map id (filteredDestinations (page u')) ->
  tab_of (tabs u') k = tab_of (tabs u) k /\ dispatch applyFilters (page u) e = Some (page u').
Proof.
  intros (_ & s' & E & ->)%ui_page_step. simpl.
  rewrite rendered_keys_render. intros Hk. by rewrite tab_of_reconcile.
Qed.

(** A destination that is not displayed has no mounted card. *)
Lemma hidden_tab_default u d :
  ui_inv u -> d ∈ destinations -> d ∉ filteredDestinations (page u) ->
  tab_of (tabs u) (id d) = defaultValue.
Proof.
  intros [Hr Hd] Hin Hout. apply tab_of_not_dom.
  rewrite Hd, rendered_keys_render, elem_of_list_to_set. intros Hk.
  apply list_elem_of_fmap_1 in Hk as (d' & Hid & Hd').
  assert (d = d') as <-; [|done].
  eapply catalog_id_inj; [apply destinations_wf | done | | done].
  eapply sublist_elem_of; [by apply reachable_sublist | exact Hd'].
Qed.

Lemma ui_run_app u es1 es2 :
  ui_run u (es1 ++ es2) = match ui_run u es1 with Some u1 => ui_run u1 es2 | None => None end.
Proof.
  revert u; induction es1 as [|e es1 IH]; intros u; simpl; [done|].
  destruct (ui_step u e); [apply IH | done].
Qed.

(** Letting every pending callback run, oldest first. *)
Lemma ui_drain u :
  exists u', ui_run u (repeat (PageEvent TimeoutFires) (List.length (timeouts (page u)))) = Some u' /\
             timeouts (page u') = [].
Proof.
  remember (List.length (timeouts (page u))) as n eqn:Hn. revert u Hn.
  induction n as [|n IH]; intros u Hn.
  - exists u. split; [done|]. by destruct (timeouts (page u)).
  - destruct (timeouts (page u)) as [|g rest] eqn:Ht; [done|].
    cbn [repeat ui_run ui_step emits dispatch]. unfold runTimeout. rewrite Ht.
    apply IH. simpl in Hn |- *. lia.
Qed.

(** ** Properties of the tabs *)

(** C10: in every reachable state of the page and its cards, the tab
    states are exactly those of the rendered cards, one per displayed
    destination: the map's keys are the ids of [filteredDestinations]
    and its size is their number. *)
Theorem ui_tabs_mounted u :
  rtc ui_rel initialUI u ->
  dom (tabs u) = list_to_set (List.map id (filteredDestinations (page u))) /\
  size (tabs u) = List.length (filteredDestinations (page u)).
Proof.
  intros Hu. destruct (ui_reachable_inv u Hu) as [Hr Hd].
  rewrite rendered_keys_render in Hd. split; [done|].
  rewrite <- size_dom, Hd, size_list_to_set, length_map; [done|].
  by destruct (reachable_displayed_wf _ Hr).
Qed.

(** C11: a page event (a filter change, a callback, a reset) leaves the
    open tab of every card it still renders as it was: filtering never
    switches the tab of a card that stays on screen. *)
Theorem tabs_survive_filtering u e u' d :
  ui_step u (PageEvent e) = Some u' ->
  d ∈ filteredDestinations (page u) -> d ∈ filteredDestinations (page u') ->
  shown_panel u' d = shown_panel u d.
Proof.
  intros Hs _ Hd'. unfold shown_panel.
  rewrite (proj1 (page_step_tab_of u e u' (id d) Hs ltac:(by apply list_elem_of_fmap_2))).
  done.
Qed.

(** C12: a card that a page event brings back on screen is mounted
    afresh and shows its travel tips, whatever tab it showed before it
    was filtered out. *)
Theorem remount_resets_tab u e u' d :
  rtc ui_rel initialUI u -> ui_step u (PageEvent e) = Some u' ->
  d ∉ filteredDestinations (page u) -> d ∈ filteredDestinations (page u') ->
  shown_panel u' d = TipsPanel (card_tips (render_card d)).
Proof.
  intros Hu Hs Hout Hin.
  destruct (page_step_tab_of u e u' (id d) Hs ltac:(by apply list_elem_of_fmap_2)) as [Ht Hd].
  destruct (ui_reachable_inv u Hu) as [Hr Hdom].
  unfold shown_panel. rewrite Ht, hidden_tab_default; [done | split; done | | done].
  eapply sublist_elem_of; [apply reachable_sublist; by econstructor | exact Hin].
Qed.

(** C5: the page can always be brought back to a consistent render:
    from any state, letting the pending callbacks run and then clicking
    Reset Filters leaves no callback pending, empties the three filters
    and displays [applyFilters] of them, the whole catalog.  The order
    matters: a callback still pending after the reset is not cancelled (C3) and
    replaces the list when it runs. *)
Theorem reset_recovers u :
  exists u',
    ui_run u (repeat (PageEvent TimeoutFires) (List.length (timeouts (page u))) ++
              [PageEvent ResetClick]) = Some u' /\
    timeouts (page u') = [] /\ filters (page u') = emptyFilters /\
    filteredDestinations (page u') = applyFilters destinations (filters (page u')).
Proof.
  destruct (ui_drain u) as (u1 & Hd & Ht). rewrite ui_run_app, Hd.
  eexists. split; [reflexivity|]. simpl. rewrite Ht. split_and!; reflexivity.
Qed.

(** ** Witnesses *)

Lemma ui_tabs_mounted_witness :
  let u := {| page := initialState; tabs := <[1 := ItineraryTab]> (tabs initialUI) |} in
  rtc ui_rel initialUI u /\
  dom (tabs u) = list_to_set (List.map id (filteredDestinations (page u))) /\
  size (tabs u) = List.length (filteredDestinations (page u)).
Proof.
  assert (rtc ui_rel initialUI
            {| page := initialState; tabs := <[1 := ItineraryTab]> (tabs initialUI) |}) as H.
  { apply rtc_once. exists (TabClick 1 ItineraryTab). vm_compute. reflexivity. }
  split; [exact H | apply ui_tabs_mounted, H].
Defined.

Lemma tabs_survive_filtering_witness :
  let u := initialUI in
  let u' := commit (handleRegionChange "Europe" initialState) (tabs initialUI) in
  ui_step u (PageEvent (RegionChange "Europe")) = Some u' /\
  boulder ∈ filteredDestinations (page u) /\ boulder ∈ filteredDestinations (page u') /\
  shown_panel u' boulder = shown_panel u boulder.
Proof.
  assert (ui_step initialUI (PageEvent (RegionChange "Europe")) =
          Some (commit (handleRegionChange "Europe" initialState) (tabs initialUI))) as Hs
    by reflexivity.
  assert (boulder ∈ filteredDestinations (page initialUI)) as H1 by (simpl; set_solver).
  split_and!; [exact Hs | exact H1 | exact H1 | apply (tabs_survive_filtering _ _ _ _ Hs H1 H1)].
Defined.

Lemma remount_resets_tab_witness :
  match ui_run initialUI lost_tab_events with
  | Some u =>
      match ui_step u (PageEvent ResetClick) with
      | Some u' =>
          rtc ui_rel initialUI u /\ ui_step u (PageEvent ResetClick) = Some u' /\
          (boulder ∉ filteredDestinations (page u)) /\ boulder ∈ filteredDestinations (page u') /\
          shown_panel u' boulder = TipsPanel (card_tips (render_card boulder))
      | None => False
      end
  | None => False
  end.
Proof.
  destruct (ui_run initialUI lost_tab_events) as [u|] eqn:E; [|vm_compute in E; discriminate].
  pose proof (ui_run_rtc _ _ _ E) as Hu. vm_compute in E. injection E as Eu.
  destruct (ui_step _ (PageEvent ResetClick)) as [u'|] eqn:E2; [|vm_compute in E2; discriminate].
  assert (boulder ∉ filteredDestinations (page u)) as Hout
    by (rewrite <- Eu; apply (bool_decide_eq_true_1 _); vm_compute; reflexivity).
  assert (boulder ∈ filteredDestinations (page u')) as Hin.
  { pose proof E2 as E3. rewrite <- Eu in E3. vm_compute in E3. injection E3 as <-.
    apply (bool_decide_eq_true_1 _). vm_compute. reflexivity. }
  split_and!; [exact Hu | reflexivity | exact Hout | exact Hin |].
  exact (remount_resets_tab _ _ _ _ Hu E2 Hout Hin).
Defined.
End CardTabs.
