(* ===== verification/Home.v ===== *)
(** * The landing page and the shared navigation

    [src/app/page.tsx] is static: a header navigation (lines 13-26), the
    hero with its image and a call to action linking to [/destinations]
    (lines 29-59), three "Why Choose Us" items (lines 71-147), three
    featured cards with their images (lines 160-206), a second link to
    [/destinations] (lines 208-212) and the footer links (lines 219-226).
    The destinations page repeats the header and the footer
    ([src/app/destinations/page.tsx], lines 206-219 and 385-392).  The
    page has no state and no logic: its content is transcribed here as
    data, and no property is claimed of it beyond what the definitions
    state. *)

From S2P Require Import Prelude Catalog.
Import Catalog.

Module Home.
Local Open Scope string_scope.

(** A [<Link href=...>label</Link>]. *)
Record NavLink := { label : string; href : string }.

(** The header navigation of the landing page (lines 13-26). *)
Definition homeNav : list NavLink :=
  [{| label := "Home"; href := "/" |};
   {| label := "Destinations"; href := "/destinations" |};
   {| label := "About"; href := "#" |};
   {| label := "Contact"; href := "#" |}].

(** The header navigation of the destinations page (lines 206-219). *)
Definition destinationsNav : list NavLink :=
  [{| label := "Home"; href := "/" |};
   {| label := "Destinations"; href := "/destinations" |};
   {| label := "About"; href := "#" |};
   {| label := "Contact"; href := "#" |}].

(** The footer links, the same on both pages. *)
Definition homeFooter : list NavLink :=
  [{| label := "Terms of Service"; href := "#" |}; {| label := "Privacy"; href := "#" |}].
Definition destinationsFooter : list NavLink :=
  [{| label := "Terms of Service"; href := "#" |}; {| label := "Privacy"; href := "#" |}].

(** The brand link at the left of each header (lines 10-12 here,
    203-205 of the destinations page). *)
Definition homeBrand : NavLink := {| label := "AthleticDestinations"; href := "/" |}.
Definition destinationsBrand : NavLink := {| label := "AthleticDestinations"; href := "/" |}.

(** The copyright line of each footer (line 218 here, 384 of the
    destinations page); the sign is the code unit 169. *)
Definition homeCopyright : string :=
  String "169"%char " 2024 AthleticDestinations. All rights reserved.".
Definition destinationsCopyright : string :=
  String "169"%char " 2024 AthleticDestinations. All rights reserved.".

(** The call to action of the hero (lines 43-47) and the button under
    the featured cards (lines 208-212). *)
Definition exploreButton : NavLink := {| label := "Explore Destinations"; href := "/destinations" |}.
Definition viewAllButton : NavLink := {| label := "View All Destinations"; href := "/destinations" |}.

Definition homeButtons : list NavLink := [exploreButton; viewAllButton].

(** The headings of the two sections (lines 64-68 and 154-157). *)
Definition whyTitle : string := "Why Choose Us".
Definition whyText : string :=
  "We understand the unique needs of athletes when traveling. Our curated destinations and itineraries are designed with your training and performance in mind.".
Definition featuredTitle : string := "Featured Destinations".
Definition featuredText : string := "Check out some of our most popular athletic destinations".

(** The heading of the destinations page (lines 226-230). *)
Definition destinationsTitle : string := "Athletic Destinations".
Definition destinationsText : string :=
  "Discover the perfect training locations for your athletic pursuits. Filter by region or interest to find your next adventure.".

(** A [<Image src=... width=... height=... alt=...>]. *)
Record Img := { img_src : string; img_alt : string; img_width : nat; img_height : nat }.

(** The hero section (lines 29-59): heading, text, and image; its call
    to action is the first of [homeButtons]. *)
Definition heroTitle : string := "Travel Destinations for Athletes".
Definition heroText : string :=
  "Discover the perfect destinations for your athletic adventures. From mountain trails to coastal routes, we have curated the best locations for every sport.".
Definition heroImage : Img :=
  {| img_src := "/placeholder.svg?height=550&width=550"; img_alt := "Athletes traveling";
     img_width := 550; img_height := 550 |}.

(** One of the three "Why Choose Us" items (lines 71-147); the SVG
    icons are not modelled. *)
Record Feature := { feature_title : string; feature_text : string }.

Definition features : list Feature :=
  [{| feature_title := "Athletic-Focused";
      feature_text := "All our destinations are selected with athletes in mind, featuring training facilities and routes." |};
   {| feature_title := "Detailed Itineraries";
      feature_text := "Our sample itineraries include training schedules and recovery options." |};
   {| feature_title := "Expert Advice";
      feature_text := "Travel tips from professional athletes and sports nutritionists." |}].

(** A featured card (lines 161-205): its image, the title and the blurb. *)
Record Featured := { feat_image : Img; title : string; blurb : string }.

Definition featured_image (alt : string) : Img :=
  {| img_src := "/placeholder.svg?height=300&width=400"; img_alt := alt;
     img_width := 400; img_height := 300 |}.

Definition featured : list Featured :=
  [{| feat_image := featured_image "Boulder, Colorado"; title := "Boulder, Colorado";
      blurb := "Perfect for trail runners and cyclists" |};
   {| feat_image := featured_image "Mallorca, Spain"; title := "Mallorca, Spain";
      blurb := "Cycling paradise with scenic coastal routes" |};
   {| feat_image := featured_image "Kona, Hawaii"; title := "Kona, Hawaii";
      blurb := "Triathlon training with year-round warm weather" |}].

End Home.
